(** * CMake-GitVersion: the two example consumers of the generated version headers

    The repository ships two consumers of the headers that the build step
    generates: [main] in example/example.cc, which prints the version data of
    the target [example], and [print_version_of_lib] in
    example/example-shared.cc, which prints the version data of the target
    [example_lib].  Both are straight-line sequences of insertions into
    [std::cout].

    The embedding keeps the shape of the source.  A program is a term of a
    small free monad whose actions are the three things the source does:
    calling an accessor of a generated header, inserting an operand into
    [std::cout] with [operator<<], and applying the manipulator [std::endl].
    Running a program threads the process state (the embedded version data of
    each target and the output stream) and records the sequence of actions. *)

From Stdlib Require Import String Ascii List Bool ZArith NArith Lia.
From Stdlib Require Import DecimalString DecimalN.
Import ListNotations.
Local Open Scope list_scope.
Local Open Scope string_scope.

Set Implicit Arguments.

(** ** The generated headers *)

(** The two namespaces the sources call into: [example::] comes from
    example-GitVersion.h, [example_lib::] from example_lib-GitVersion.h. *)
Inductive library : Type :=
| example
| example_lib.

(** The seven zero-argument functions the sources call in each namespace. *)
Inductive accessor : Type :=
| version_string
| version_branch
| version_fullhash
| version_shorthash
| version_isdirty
| version_distance
| version_flag.

(** The field order of the data model, which is also the textual order of
    the calls in both source files. *)
Definition fields : list accessor :=
  [version_string; version_branch; version_fullhash; version_shorthash;
   version_isdirty; version_distance; version_flag].

(** The static types an operand of [operator<<] has in the two files: a
    character string (a literal or a [const char*]), a [bool], an unsigned
    integer. *)
Inductive value : Type :=
| Text (s : string)
| Bool (b : bool)
| UInt (n : N).

Module VersionInfo.

(** Modelled from the spec: the generated headers example-GitVersion.h and
    example_lib-GitVersion.h are not part of the sources.  The data model
    gives the entity one field per accessor: text for the version string, the
    branch and the two hashes, a boolean for the dirty flag, a non-negative
    integer for the distance, and an opaque pass-through value for the flag,
    taken as text here (the scenario of the testable properties populates it
    with a text). *)
Record t : Type := {
  version_string : string;
  version_branch : string;
  version_fullhash : string;
  version_shorthash : string;
  version_isdirty : bool;
  version_distance : N;
  version_flag : string
}.

End VersionInfo.

(** Modelled from the spec: the bodies of the accessors are in the absent
    generated headers.  Each accessor takes no input and returns its
    corresponding field of the data embedded at build time. *)
Definition returns (a : accessor) (vi : VersionInfo.t) : value :=
  match a with
  | version_string => Text (VersionInfo.version_string vi)
  | version_branch => Text (VersionInfo.version_branch vi)
  | version_fullhash => Text (VersionInfo.version_fullhash vi)
  | version_shorthash => Text (VersionInfo.version_shorthash vi)
  | version_isdirty => Bool (VersionInfo.version_isdirty vi)
  | version_distance => UInt (VersionInfo.version_distance vi)
  | version_flag => Text (VersionInfo.version_flag vi)
  end.

(** ** The output stream *)

(** The line feed that [std::endl] puts. *)
Definition newline : string := String (ascii_of_nat 10) EmptyString.

(** The characters [operator<<] inserts for an operand.  Neither file touches
    the format flags of [std::cout], so the stream is in its initial
    formatting state: a character string is inserted as it is, a [bool] as
    the numeral 1 or 0 (the [boolalpha] flag is off), an unsigned integer in
    decimal without padding. *)
Definition format (v : value) : string :=
  match v with
  | Text s => s
  | Bool b => if b then "1" else "0"
  | UInt n => NilEmpty.string_of_uint (N.to_uint n)
  end.

(** [std::cout]: the characters already handed to the device and the
    characters still in the stream buffer. *)
Record ostream : Type := {
  flushed : string;
  pending : string
}.

Definition write (s : string) (os : ostream) : ostream :=
  {| flushed := flushed os; pending := pending os ++ s |}.

Definition flush (os : ostream) : ostream :=
  {| flushed := flushed os ++ pending os; pending := "" |}.

(** Everything inserted so far, in order. *)
Definition contents (os : ostream) : string :=
  flushed os ++ pending os.

(** ** Programs *)

(** The process state: the version data embedded for each target, and
    [std::cout]. *)
Record world : Type := {
  info : library -> VersionInfo.t;
  cout : ostream
}.

Definition on_cout (f : ostream -> ostream) (w : world) : world :=
  {| info := info w; cout := f (cout w) |}.

Inductive prog (R : Type) : Type :=
| Ret (r : R)
| Call (l : library) (a : accessor) (k : value -> prog R)
| Insert (v : value) (k : prog R)
| Endl (k : prog R).

Arguments Ret {R} r.
Arguments Call {R} l a k.
Arguments Insert {R} v k.
Arguments Endl {R} k.

Fixpoint bind {A B : Type} (p : prog A) (f : A -> prog B) : prog B :=
  match p with
  | Ret r => f r
  | Call l a k => Call l a (fun v => bind (k v) f)
  | Insert v k => Insert v (bind k f)
  | Endl k => Endl (bind k f)
  end.

Definition call (l : library) (a : accessor) : prog value := Call l a Ret.
Definition insert (v : value) : prog unit := Insert v (Ret tt).
Definition endl : prog unit := Endl (Ret tt).

Declare Scope prog_scope.
Delimit Scope prog_scope with prog.
Bind Scope prog_scope with prog.

Notation "x <- p ;; q" := (bind p (fun x => q))
  (at level 61, p at next level, right associativity) : prog_scope.
Notation "p ;; q" := (bind p (fun _ => q))
  (at level 61, right associativity) : prog_scope.

(** What an observer of a run sees, in order: an accessor called and the
    value it returned, an operand inserted into [std::cout], [std::endl]
    applied. *)
Inductive event : Type :=
| Called (l : library) (a : accessor) (v : value)
| Inserted (v : value)
| Endled.

Record outcome (R : Type) : Type := {
  result : R;
  final : world;
  trace : list event
}.

Definition after {R : Type} (e : event) (o : outcome R) : outcome R :=
  {| result := result o; final := final o; trace := e :: trace o |}.

Fixpoint exec {R : Type} (p : prog R) (w : world) : outcome R :=
  match p with
  | Ret r => {| result := r; final := w; trace := [] |}
  | Call l a k =>
      let v := returns a (info w l) in
      after (Called l a v) (exec (k v) w)
  | Insert v k =>
      after (Inserted v) (exec k (on_cout (write (format v)) w))
  | Endl k =>
      after Endled (exec k (on_cout (fun os => flush (write newline os)) w))
  end.

(** ** The two source files *)

Local Open Scope prog_scope.

(** example/example.cc.  Within one statement the operands of [<<] are
    taken left to right, as C++17 sequences them: the label is inserted, the
    accessor is called, its result is inserted, [std::endl] is applied.  An
    earlier standard leaves open whether the call comes before or after the
    insertion of the label; the accessors only read, so the characters
    written are the same either way.  [argc] and [argv] are bound and never
    used. *)
Definition main (argc : Z) (argv : list string) : prog Z :=
  insert (Text "CMake-GitVersion example") ;; endl ;;
  insert (Text "- version_string: ") ;;
    x <- call example version_string ;; insert x ;; endl ;;
  insert (Text "- version_branch: ") ;;
    x <- call example version_branch ;; insert x ;; endl ;;
  insert (Text "- version_fullhash: ") ;;
    x <- call example version_fullhash ;; insert x ;; endl ;;
  insert (Text "- version_shorthash: ") ;;
    x <- call example version_shorthash ;; insert x ;; endl ;;
  insert (Text "- version_isdirty: ") ;;
    x <- call example version_isdirty ;; insert x ;; endl ;;
  insert (Text "- version_distance: ") ;;
    x <- call example version_distance ;; insert x ;; endl ;;
  insert (Text "- version_flag: ") ;;
    x <- call example version_flag ;; insert x ;; endl ;;
  Ret 0%Z.

(** example/example-shared.cc. *)
Definition print_version_of_lib : prog unit :=
  insert (Text "| CMake-GitVersion library version") ;; endl ;;
  insert (Text "| - version_string: ") ;;
    x <- call example_lib version_string ;; insert x ;; endl ;;
  insert (Text "| - version_branch: ") ;;
    x <- call example_lib version_branch ;; insert x ;; endl ;;
  insert (Text "| - version_fullhash: ") ;;
    x <- call example_lib version_fullhash ;; insert x ;; endl ;;
  insert (Text "| - version_shorthash: ") ;;
    x <- call example_lib version_shorthash ;; insert x ;; endl ;;
  insert (Text "| - version_isdirty: ") ;;
    x <- call example_lib version_isdirty ;; insert x ;; endl ;;
  insert (Text "| - version_distance: ") ;;
    x <- call example_lib version_distance ;; insert x ;; endl ;;
  insert (Text "| - version_flag: ") ;;
    x <- call example_lib version_flag ;; insert x ;; endl.

Local Close Scope prog_scope.

(** ** Observations on a run *)

(** The characters a trace puts into the stream. *)
Fixpoint emitted (t : list event) : string :=
  match t with
  | [] => ""
  | Called _ _ _ :: t' => emitted t'
  | Inserted v :: t' => format v ++ emitted t'
  | Endled :: t' => newline ++ emitted t'
  end.

(** The output of a run: the characters the program adds to [std::cout]. *)
Definition output {R : Type} (p : prog R) (w : world) : string :=
  emitted (trace (exec p w)).

(** The lines a trace writes: the characters inserted up to each
    [std::endl], and the characters left after the last one. *)
Fixpoint lines_from (cur : string) (t : list event) : list string * string :=
  match t with
  | [] => ([], cur)
  | Called _ _ _ :: t' => lines_from cur t'
  | Inserted v :: t' => lines_from (cur ++ format v) t'
  | Endled :: t' => let (ls, rest) := lines_from "" t' in (cur :: ls, rest)
  end.

Definition lines_written {R : Type} (p : prog R) (w : world) : list string * string :=
  lines_from "" (trace (exec p w)).

(** The accessor calls of a trace, in order. *)
Fixpoint calls (t : list event) : list (library * accessor) :=
  match t with
  | [] => []
  | Called l a _ :: t' => (l, a) :: calls t'
  | _ :: t' => calls t'
  end.

(** Every value an accessor returns is the operand of the very next action,
    an insertion into the stream. *)
Fixpoint written_at_once (t : list event) : Prop :=
  match t with
  | [] => True
  | Called _ _ v :: t' =>
      match t' with
      | Inserted v' :: _ => v' = v
      | _ => False
      end /\ written_at_once t'
  | _ :: t' => written_at_once t'
  end.

(** ** The report, as the interface section of the specification words it *)

(** The name of the field an accessor returns, as it is printed. *)
Definition name (a : accessor) : string :=
  match a with
  | version_string => "version_string"
  | version_branch => "version_branch"
  | version_fullhash => "version_fullhash"
  | version_shorthash => "version_shorthash"
  | version_isdirty => "version_isdirty"
  | version_distance => "version_distance"
  | version_flag => "version_flag"
  end.

(** A metadata line: the variant prefix (empty in the first example), a
    dash, the field name, a colon, the value. *)
Definition label (variant : string) (a : accessor) : string :=
  variant ++ "- " ++ name a ++ ": ".

Definition metadata_line (variant : string) (vi : VersionInfo.t) (a : accessor) : string :=
  label variant a ++ format (returns a vi).

Definition report (header variant : string) (vi : VersionInfo.t) : list string :=
  header :: map (metadata_line variant vi) fields.

(** A list of lines as text, each line ended by a line feed. *)
Fixpoint unlines (ls : list string) : string :=
  match ls with
  | [] => ""
  | l :: ls' => l ++ newline ++ unlines ls'
  end.

(** The actions one metadata statement of the source performs. *)
Definition statement (variant : string) (l : library) (vi : VersionInfo.t)
    (a : accessor) : list event :=
  [Inserted (Text (label variant a)); Called l a (returns a vi);
   Inserted (returns a vi); Endled].

Definition header_statement (header : string) : list event :=
  [Inserted (Text header); Endled].

(** ** The scenario of the testable properties *)

Definition scenario : VersionInfo.t :=
  {| VersionInfo.version_string := "1.2.3-dirty";
     VersionInfo.version_branch := "main";
     VersionInfo.version_fullhash := "abcdef1234567890";
     VersionInfo.version_shorthash := "abcdef1";
     VersionInfo.version_isdirty := true;
     VersionInfo.version_distance := 5;
     VersionInfo.version_flag := "debug" |}.

(** A value spelled the way the scenario spells it: a text as it is, a
    boolean as the word true or false, an integer in decimal. *)
Definition verbatim (v : value) : string :=
  match v with
  | Text s => s
  | Bool b => if b then "true" else "false"
  | UInt n => NilEmpty.string_of_uint (N.to_uint n)
  end.

(** [needle] occurs in [hay]. *)
Definition occurs (needle hay : string) : Prop :=
  exists pre post, hay = pre ++ needle ++ post.

(** The needles occur in [hay] one after the other, in the order of the
    list. *)
Fixpoint in_order (needles : list string) (hay : string) : Prop :=
  match needles with
  | [] => True
  | n :: ns => exists pre post, hay = pre ++ n ++ post /\ in_order ns post
  end.

(** The decision procedure for [occurs]. *)
Fixpoint contains (needle hay : string) : bool :=
  orb (prefix needle hay)
      match hay with
      | EmptyString => false
      | String _ hay' => contains needle hay'
      end.

(** A process that has just started: the given version data, nothing
    written yet. *)
Definition fresh (vi : library -> VersionInfo.t) : world :=
  {| info := vi; cout := {| flushed := ""; pending := "" |} |}.

(** Another build: a clean checkout sitting on a tag. *)
Definition release : VersionInfo.t :=
  {| VersionInfo.version_string := "0.9.0";
     VersionInfo.version_branch := "develop";
     VersionInfo.version_fullhash := "0123456789abcdef";
     VersionInfo.version_shorthash := "0123456";
     VersionInfo.version_isdirty := false;
     VersionInfo.version_distance := 0;
     VersionInfo.version_flag := "" |}.

(** A process whose stream already holds a line. *)
Definition resumed (vi : library -> VersionInfo.t) : world :=
  {| info := vi;
     cout := {| flushed := "$ ./example" ++ newline; pending := "" |} |}.

(** ** Text lines *)

Definition is_line_feed (c : ascii) : bool := Ascii.eqb c (ascii_of_nat 10).

(** The lines of a text as a reader of the output sees them: the characters
    before each line feed, and the characters after the last one. *)
Fixpoint text_lines (s : string) : list string * string :=
  match s with
  | EmptyString => ([], "")
  | String c s' =>
      let (ls, rest) := text_lines s' in
      if is_line_feed c then ("" :: ls, rest)
      else match ls with
           | [] => ([], String c rest)
           | l :: ls' => (String c l :: ls', rest)
           end
  end.

Fixpoint one_line (s : string) : bool :=
  match s with
  | EmptyString => true
  | String c s' => negb (is_line_feed c) && one_line s'
  end.

(** No text field of the version data holds a line feed. *)
Definition one_line_each (vi : VersionInfo.t) : bool :=
  forallb (fun a => one_line (format (returns a vi))) fields.

(** The number of line feeds in a text. *)
Fixpoint line_feeds (s : string) : nat :=
  match s with
  | EmptyString => 0
  | String c s' => (if is_line_feed c then 1 else 0) + line_feeds s'
  end.

(** The number of line feeds in the seven values as they are printed. *)
Definition line_feeds_in (vi : VersionInfo.t) : nat :=
  list_sum (map (fun a => line_feeds (format (returns a vi))) fields).

(** Two builds whose version string and branch hold a line feed, and which
    differ in both. *)
Definition broken_string : VersionInfo.t :=
  {| VersionInfo.version_string := "a" ++ newline ++ "- version_branch: b";
     VersionInfo.version_branch := "c";
     VersionInfo.version_fullhash := "0123456789abcdef";
     VersionInfo.version_shorthash := "0123456";
     VersionInfo.version_isdirty := false;
     VersionInfo.version_distance := 0;
     VersionInfo.version_flag := "" |}.

Definition broken_branch : VersionInfo.t :=
  {| VersionInfo.version_string := "a";
     VersionInfo.version_branch := "b" ++ newline ++ "- version_branch: c";
     VersionInfo.version_fullhash := "0123456789abcdef";
     VersionInfo.version_shorthash := "0123456";
     VersionInfo.version_isdirty := false;
     VersionInfo.version_distance := 0;
     VersionInfo.version_flag := "" |}.

(** * Properties *)

(** ** Strings *)

Lemma append_nil_r (s : string) : s ++ "" = s.
Proof. induction s as [|c s IH]; simpl; [reflexivity | now rewrite IH]. Qed.

Lemma append_assoc (s1 s2 s3 : string) : (s1 ++ s2) ++ s3 = s1 ++ s2 ++ s3.
Proof. induction s1 as [|c s1 IH]; simpl; [reflexivity | now rewrite IH]. Qed.

Lemma prefix_append (n post : string) : prefix n (n ++ post) = true.
Proof.
  induction n as [|c n IH]; simpl.
  - now destruct post.
  - destruct (ascii_dec c c) as [_|ne]; [exact IH | now elim ne].
Qed.

Lemma contains_here (n hay : string) : prefix n hay = true -> contains n hay = true.
Proof. intros H. destruct hay; simpl in *; rewrite H; reflexivity. Qed.

Lemma occurs_contains (n hay : string) : occurs n hay -> contains n hay = true.
Proof.
  intros (pre & post & ->).
  induction pre as [|c pre IH].
  - apply contains_here. exact (prefix_append n post).
  - simpl. rewrite IH. apply Bool.orb_true_r.
Qed.

Lemma occurs_later (n pre hay : string) : occurs n hay -> occurs n (pre ++ hay).
Proof.
  intros (p & q & ->). exists (pre ++ p), q. now rewrite append_assoc.
Qed.

Lemma in_order_occurs (ns : list string) :
  forall hay, in_order ns hay -> forall n, In n ns -> occurs n hay.
Proof.
  induction ns as [|m ns IH]; intros hay H n Hin; [destruct Hin|].
  destruct H as (pre & post & -> & H).
  destruct Hin as [<-|Hin].
  - now exists pre, post.
  - apply occurs_later. rewrite <- (append_nil_r m), append_assoc.
    apply occurs_later. simpl. now apply IH.
Qed.

(** ** Running programs *)

Section Exec.

Context {A B : Type}.

Lemma exec_bind (p : prog A) (f : A -> prog B) (w : world) :
  exec (bind p f) w =
  let o := exec p w in
  let o' := exec (f (result o)) (final o) in
  {| result := result o'; final := final o'; trace := (trace o ++ trace o')%list |}.
Proof.
  revert w. induction p as [r|l a k IH|v k IH|k IH]; intros w; simpl.
  - now destruct (exec (f r) w).
  - now rewrite IH.
  - now rewrite IH.
  - now rewrite IH.
Qed.

(** No action of a program writes the embedded version data. *)
Lemma exec_info (p : prog A) (w : world) : info (final (exec p w)) = info w.
Proof.
  revert w. induction p as [r|l a k IH|v k IH|k IH]; intros w; simpl; auto.
  - now rewrite IH.
  - now rewrite IH.
Qed.

(** The stream grows by exactly the characters of the trace. *)
Lemma exec_contents (p : prog A) (w : world) :
  contents (cout (final (exec p w))) = contents (cout w) ++ output p w.
Proof.
  unfold output. revert w.
  induction p as [r|l a k IH|v k IH|k IH]; intros w; simpl.
  - now rewrite append_nil_r.
  - apply IH.
  - rewrite IH. unfold contents; simpl. now rewrite !append_assoc.
  - rewrite IH. unfold contents; simpl.
    now rewrite append_nil_r, !append_assoc.
Qed.


End Exec.

(** The closed form of the actions of the two programs. *)
Lemma main_trace (argc : Z) (argv : list string) (w : world) :
  trace (exec (main argc argv) w) =
  (header_statement "CMake-GitVersion example" ++
   flat_map (statement "" example (info w example)) fields)%list.
Proof. reflexivity. Qed.

Lemma print_version_of_lib_trace (w : world) :
  trace (exec print_version_of_lib w) =
  (header_statement "| CMake-GitVersion library version" ++
   flat_map (statement "| " example_lib (info w example_lib)) fields)%list.
Proof. reflexivity. Qed.

Lemma report_trace (header variant : string) (l : library) (vi : VersionInfo.t) :
  let t := (header_statement header ++ flat_map (statement variant l vi) fields)%list in
  lines_from "" t = (report header variant vi, "") /\
  emitted t = unlines (report header variant vi).
Proof.
  split.
  - reflexivity.
  - simpl. unfold metadata_line. now rewrite !append_assoc.
Qed.

(** When nothing is left in the buffer, the device holds what the stream
    held before the run followed by the output of the run. *)
Lemma exec_flushed {R : Type} (p : prog R) (w : world) :
  pending (cout (final (exec p w))) = "" ->
  cout (final (exec p w)) =
  {| flushed := contents (cout w) ++ output p w; pending := "" |}.
Proof.
  intros H. rewrite <- exec_contents. unfold contents. rewrite H, append_nil_r.
  destruct (cout (final (exec p w))); simpl in *; now subst.
Qed.

Lemma in_order_later (ns : list string) (pre hay : string) :
  in_order ns hay -> in_order ns (pre ++ hay).
Proof.
  destruct ns as [|n ns]; simpl; [trivial|].
  intros (p & q & -> & H). exists (pre ++ p), q. now rewrite append_assoc.
Qed.

(** The formatted values occur in the text of the metadata lines, in the
    order of the lines. *)
Lemma values_in_order (variant : string) (vi : VersionInfo.t) (fs : list accessor) :
  in_order (map (fun a => format (returns a vi)) fs)
           (unlines (map (metadata_line variant vi) fs)).
Proof.
  induction fs as [|a fs IH]; simpl; [trivial|].
  exists (label variant a), (newline ++ unlines (map (metadata_line variant vi) fs)).
  split.
  - unfold metadata_line. now rewrite append_assoc.
  - now apply in_order_later.
Qed.

(** ** The output as text lines *)

Lemma one_line_append (a b : string) :
  one_line (a ++ b) = (one_line a && one_line b)%bool.
Proof.
  induction a as [|c a IH]; simpl; [reflexivity|].
  now rewrite IH, Bool.andb_assoc.
Qed.

Lemma text_lines_line (l s : string) :
  one_line l = true ->
  text_lines (l ++ newline ++ s) = (l :: fst (text_lines s), snd (text_lines s)).
Proof.
  induction l as [|c l IH]; intros H.
  - simpl. now destruct (text_lines s).
  - cbn [one_line] in H. apply andb_prop in H. destruct H as [Hc Hl].
    cbn [append text_lines]. rewrite (IH Hl).
    now destruct (is_line_feed c).
Qed.

Lemma text_lines_unlines (ls : list string) :
  forallb one_line ls = true -> text_lines (unlines ls) = (ls, "").
Proof.
  induction ls as [|l ls IH]; intros H; [reflexivity|].
  cbn [forallb] in H. apply andb_prop in H. destruct H as [Hl Hls].
  cbn [unlines]. now rewrite (text_lines_line _ _ Hl), (IH Hls).
Qed.

Lemma one_line_metadata (variant : string) (vi : VersionInfo.t) (fs : list accessor) :
  one_line variant = true ->
  forallb (fun a => one_line (format (returns a vi))) fs = true ->
  forallb one_line (map (metadata_line variant vi) fs) = true.
Proof.
  intros Hv. induction fs as [|a fs IH]; simpl; intros H; [reflexivity|].
  apply andb_prop in H. destruct H as [Ha Hfs].
  rewrite (IH Hfs), Bool.andb_true_r.
  unfold metadata_line, label. rewrite !one_line_append, Hv, Ha.
  now destruct a.
Qed.

(** When no value holds a line feed, a reader who splits the output at the
    line feeds finds the lines of the report and nothing else. *)
Lemma report_text_lines (header variant : string) (vi : VersionInfo.t) :
  one_line header = true -> one_line variant = true -> one_line_each vi = true ->
  text_lines (unlines (report header variant vi)) = (report header variant vi, "").
Proof.
  intros Hh Hv Hvi. apply text_lines_unlines. unfold report.
  change (andb (one_line header)
               (forallb one_line (map (metadata_line variant vi) fields)) = true).
  rewrite Hh. now apply one_line_metadata.
Qed.

(** X1.  When none of the values of the target [example] holds a line feed,
    the output of [main], split at its line feeds, is the header line and the
    seven metadata lines, with nothing after the last line feed. *)
Lemma main_text_lines (argc : Z) (argv : list string) (w : world) :
  one_line_each (info w example) = true ->
  text_lines (output (main argc argv) w) =
  (report "CMake-GitVersion example" "" (info w example), "").
Proof.
  intros H. unfold output. rewrite main_trace.
  destruct (report_trace "CMake-GitVersion example" "" example (info w example))
    as [_ E].
  cbv zeta in E. rewrite E. now apply report_text_lines.
Qed.

(** X2.  When none of the values of the target [example_lib] holds a line
    feed, the output of [print_version_of_lib], split at its line feeds, is
    the header line and the seven metadata lines, with nothing after the last
    line feed. *)
Lemma print_version_of_lib_text_lines (w : world) :
  one_line_each (info w example_lib) = true ->
  text_lines (output print_version_of_lib w) =
  (report "| CMake-GitVersion library version" "| " (info w example_lib), "").
Proof.
  intros H. unfold output. rewrite print_version_of_lib_trace.
  destruct (report_trace "| CMake-GitVersion library version" "| " example_lib
                         (info w example_lib)) as [_ E].
  cbv zeta in E. rewrite E. now apply report_text_lines.
Qed.

(** ** The claims *)

(** C1, as amended.  For the scenario values (version string 1.2.3-dirty,
    branch main, full hash abcdef1234567890, short hash abcdef1, dirty flag
    true, distance 5, flag debug) the output of [main] is the header line and
    the seven metadata lines in field order; it holds the five texts and the
    integer 5 as they are and the boolean as the numeral 1, one after the
    other in field order. *)
Theorem scenario_output (argc : Z) (argv : list string) (w : world) :
  info w example = scenario ->
  output (main argc argv) w =
  unlines ["CMake-GitVersion example";
           "- version_string: 1.2.3-dirty";
           "- version_branch: main";
           "- version_fullhash: abcdef1234567890";
           "- version_shorthash: abcdef1";
           "- version_isdirty: 1";
           "- version_distance: 5";
           "- version_flag: debug"] /\
  in_order ["1.2.3-dirty"; "main"; "abcdef1234567890"; "abcdef1"; "1"; "5"; "debug"]
           (output (main argc argv) w).
Proof.
  intros H. unfold output. rewrite main_trace, H.
  destruct (report_trace "CMake-GitVersion example" "" example scenario) as [_ E].
  cbv zeta in E. rewrite E. split; [reflexivity|].
  apply (in_order_later _ ("CMake-GitVersion example" ++ newline)).
  exact (values_in_order "" scenario fields).
Qed.

Lemma scenario_output_witness :
  info (fresh (fun _ => scenario)) example = scenario /\
  output (main 1 ["example"]) (fresh (fun _ => scenario)) =
  unlines ["CMake-GitVersion example";
           "- version_string: 1.2.3-dirty";
           "- version_branch: main";
           "- version_fullhash: abcdef1234567890";
           "- version_shorthash: abcdef1";
           "- version_isdirty: 1";
           "- version_distance: 5";
           "- version_flag: debug"] /\
  in_order ["1.2.3-dirty"; "main"; "abcdef1234567890"; "abcdef1"; "1"; "5"; "debug"]
           (output (main 1 ["example"]) (fresh (fun _ => scenario))).
Proof.
  split; [reflexivity|].
  exact (scenario_output 1 ["example"] (fresh (fun _ => scenario)) eq_refl).
Defined.

(** C1, as stated, fails: with the boolean spelled the way the scenario
    spells it, the seven values do not occur in the output of [main] in field
    order; the word true is nowhere in it. *)
Lemma scenario_not_verbatim :
  ~ in_order (map (fun a => verbatim (returns a scenario)) fields)
             (output (main 1 ["example"]) (fresh (fun _ => scenario))).
Proof.
  intros H.
  apply in_order_occurs with (n := "true") in H.
  - apply occurs_contains in H. vm_compute in H. discriminate H.
  - simpl. tauto.
Qed.

(** C2.  Whatever the version data, each program writes one header line and
    then seven metadata lines, one per field in field order, each made of the
    variant prefix (empty in the first example, a bar and a blank in the
    second), a dash, the field name, a colon and the value; the stream ends
    up holding these eight lines, each ended by a line feed, and nothing is
    left unflushed. *)
Theorem report_written (argc : Z) (argv : list string) (w : world) :
  (lines_written (main argc argv) w =
     (report "CMake-GitVersion example" "" (info w example), "") /\
   cout (final (exec (main argc argv) w)) =
     {| flushed := contents (cout w) ++
                   unlines (report "CMake-GitVersion example" "" (info w example));
        pending := "" |}) /\
  (lines_written print_version_of_lib w =
     (report "| CMake-GitVersion library version" "| " (info w example_lib), "") /\
   cout (final (exec print_version_of_lib w)) =
     {| flushed := contents (cout w) ++
                   unlines (report "| CMake-GitVersion library version" "| "
                                   (info w example_lib));
        pending := "" |}) /\
  length fields = 7.
Proof.
  split; [split | split; [split | reflexivity]].
  - unfold lines_written. rewrite main_trace. apply report_trace.
  - rewrite exec_flushed by reflexivity. unfold output. rewrite main_trace.
    now destruct (report_trace "CMake-GitVersion example" "" example
                               (info w example)) as [_ ->].
  - unfold lines_written. rewrite print_version_of_lib_trace. apply report_trace.
  - rewrite exec_flushed by reflexivity. unfold output.
    rewrite print_version_of_lib_trace.
    now destruct (report_trace "| CMake-GitVersion library version" "| "
                               example_lib (info w example_lib)) as [_ ->].
Qed.

(** C3.  Whatever the version data, the state of the stream and the
    command line, [main] runs to its end and returns 0. *)
Theorem main_returns_zero (argc : Z) (argv : list string) (w : world) :
  result (exec (main argc argv) w) = 0%Z.
Proof. reflexivity. Qed.



(** C6.  The actions of each program are the header statement followed by
    one statement per field, in field order: the label is inserted, the
    accessor is called, the value it returned is inserted at once, the line
    is ended.  So each of the seven accessors is called exactly once, in
    field order, and its value goes nowhere but into the stream. *)
Theorem each_accessor_called_once (argc : Z) (argv : list string) (w : world) :
  let t1 := trace (exec (main argc argv) w) in
  let t2 := trace (exec print_version_of_lib w) in
  (t1 = (header_statement "CMake-GitVersion example" ++
         flat_map (statement "" example (info w example)) fields)%list /\
   calls t1 = map (pair example) fields /\
   written_at_once t1) /\
  (t2 = (header_statement "| CMake-GitVersion library version" ++
         flat_map (statement "| " example_lib (info w example_lib)) fields)%list /\
   calls t2 = map (pair example_lib) fields /\
   written_at_once t2) /\
  NoDup fields /\
  (forall a, In a fields).
Proof.
  cbv zeta. split; [|split; [|split]].
  - split; [reflexivity|]. split; [reflexivity|]. simpl. tauto.
  - split; [reflexivity|]. split; [reflexivity|]. simpl. tauto.
  - unfold fields. repeat constructor; simpl; intuition discriminate.
  - intros []; simpl; tauto.
Qed.

(** C8.  [main] never reads its arguments: two command lines give the same
    return value, the same final state and the same actions. *)
Theorem main_ignores_arguments (argc1 argc2 : Z) (argv1 argv2 : list string)
    (w : world) :
  exec (main argc1 argv1) w = exec (main argc2 argv2) w.
Proof. reflexivity. Qed.

(** C9.  The dirty flag is inserted as a [bool] under the default format
    flags: its line ends in the numeral 1 when the flag is set and in the
    numeral 0 when it is not, in both programs, and the words true and false
    do not occur in it. *)
Theorem isdirty_printed_as_numeral (argc : Z) (argv : list string) (w : world) :
  let numeral (b : bool) := if b then "1" else "0" in
  let line1 := nth 5 (fst (lines_written (main argc argv) w)) "" in
  let line2 := nth 5 (fst (lines_written print_version_of_lib w)) "" in
  (line1 = "- version_isdirty: " ++
           numeral (VersionInfo.version_isdirty (info w example)) /\
   ~ occurs "true" line1 /\ ~ occurs "false" line1) /\
  (line2 = "| - version_isdirty: " ++
           numeral (VersionInfo.version_isdirty (info w example_lib)) /\
   ~ occurs "true" line2 /\ ~ occurs "false" line2).
Proof.
  cbv zeta. unfold lines_written.
  rewrite main_trace, print_version_of_lib_trace.
  split.
  - split; [reflexivity|].
    split; intros H; apply occurs_contains in H; revert H; simpl;
      destruct (VersionInfo.version_isdirty (info w example)); discriminate.
  - split; [reflexivity|].
    split; intros H; apply occurs_contains in H; revert H; simpl;
      destruct (VersionInfo.version_isdirty (info w example_lib)); discriminate.
Qed.

(** C10.  When the two targets carry the same version data, the seven
    metadata lines of [print_version_of_lib] are the seven metadata lines of
    [main], each with a bar and a blank put in front; the header lines are
    the only other difference between the two outputs. *)
Theorem lib_lines_are_main_lines_prefixed (argc : Z) (argv : list string)
    (w1 w2 : world) :
  info w1 example = info w2 example_lib ->
  let l1 := lines_written (main argc argv) w1 in
  let l2 := lines_written print_version_of_lib w2 in
  tl (fst l2) = map (append "| ") (tl (fst l1)) /\
  length (tl (fst l1)) = 7 /\
  hd "" (fst l1) = "CMake-GitVersion example" /\
  hd "" (fst l2) = "| CMake-GitVersion library version" /\
  snd l1 = "" /\ snd l2 = "".
Proof.
  intros H. cbv zeta. unfold lines_written.
  rewrite main_trace, print_version_of_lib_trace, H.
  repeat (split; [reflexivity|]). reflexivity.
Qed.

Lemma lib_lines_are_main_lines_prefixed_witness :
  info (fresh (fun l => match l with example => scenario | example_lib => release end))
       example =
  info (fresh (fun _ => scenario)) example_lib /\
  tl (fst (lines_written print_version_of_lib (fresh (fun _ => scenario)))) =
  map (append "| ")
      (tl (fst (lines_written (main 1 ["example"])
                  (fresh (fun l => match l with
                                   | example => scenario
                                   | example_lib => release
                                   end))))).
Proof.
  split; [reflexivity|].
  apply (lib_lines_are_main_lines_prefixed 1 ["example"]
           (fresh (fun l => match l with example => scenario | example_lib => release end))
           (fresh (fun _ => scenario))).
  reflexivity.
Defined.

(** ** Further properties of the two programs *)

Lemma main_text_lines_witness :
  one_line_each (info (fresh (fun _ => scenario)) example) = true /\
  text_lines (output (main 1 ["example"]) (fresh (fun _ => scenario))) =
  (report "CMake-GitVersion example" ""
          (info (fresh (fun _ => scenario)) example), "").
Proof.
  split; [reflexivity|].
  exact (main_text_lines 1 ["example"] (fresh (fun _ => scenario)) eq_refl).
Defined.

Lemma print_version_of_lib_text_lines_witness :
  one_line_each (info (resumed (fun _ => release)) example_lib) = true /\
  text_lines (output print_version_of_lib (resumed (fun _ => release))) =
  (report "| CMake-GitVersion library version" "| "
          (info (resumed (fun _ => release)) example_lib), "").
Proof.
  split; [reflexivity|].
  exact (print_version_of_lib_text_lines (resumed (fun _ => release)) eq_refl).
Defined.

(** *** Counting the lines *)

Lemma text_lines_count (s : string) :
  length (fst (text_lines s)) = line_feeds s.
Proof.
  induction s as [|c s IH]; [reflexivity|].
  cbn [text_lines line_feeds]. rewrite <- IH.
  destruct (text_lines s) as [ls rest]. destruct (is_line_feed c).
  - reflexivity.
  - now destruct ls.
Qed.

Lemma text_lines_terminated (s : string) :
  exists l ls, text_lines (s ++ newline) = (l :: ls, "").
Proof.
  induction s as [|c s (l & ls & IH)].
  - now exists "", [].
  - cbn [append text_lines]. rewrite IH. destruct (is_line_feed c); eauto.
Qed.

Lemma line_feeds_append (a b : string) :
  line_feeds (a ++ b) = line_feeds a + line_feeds b.
Proof.
  induction a as [|c a IH]; [reflexivity|].
  cbn [append line_feeds]. rewrite IH. apply Nat.add_assoc.
Qed.

Lemma list_sum_cons (n : nat) (ns : list nat) :
  list_sum (n :: ns) = n + list_sum ns.
Proof. reflexivity. Qed.

Lemma line_feeds_unlines (ls : list string) :
  line_feeds (unlines ls) = length ls + list_sum (map line_feeds ls).
Proof.
  induction ls as [|l ls IH]; [reflexivity|].
  cbn [unlines map length]. rewrite list_sum_cons, !line_feeds_append, IH.
  change (line_feeds newline) with 1. lia.
Qed.

Lemma line_feeds_metadata (variant : string) (vi : VersionInfo.t) (fs : list accessor) :
  line_feeds variant = 0 ->
  list_sum (map line_feeds (map (metadata_line variant vi) fs)) =
  list_sum (map (fun a => line_feeds (format (returns a vi))) fs).
Proof.
  intros Hv. induction fs as [|a fs IH]; [reflexivity|].
  cbn [map]. rewrite !list_sum_cons, IH. f_equal.
  unfold metadata_line, label. rewrite !line_feeds_append, Hv.
  now destruct a.
Qed.

Lemma unlines_terminated (l : string) (ls : list string) :
  exists x, unlines (l :: ls) = x ++ newline.
Proof.
  revert l. induction ls as [|l' ls IH]; intros l.
  - exists l. cbn [unlines]. now rewrite append_nil_r.
  - destruct (IH l') as [x E]. exists (l ++ newline ++ x).
    change (unlines (l :: l' :: ls)) with (l ++ newline ++ unlines (l' :: ls)).
    now rewrite E, !append_assoc.
Qed.

Lemma report_line_count (header variant : string) (vi : VersionInfo.t) :
  line_feeds header = 0 -> line_feeds variant = 0 ->
  let t := text_lines (unlines (report header variant vi)) in
  length (fst t) = 8 + line_feeds_in vi /\ snd t = "".
Proof.
  intros Hh Hv. cbv zeta. split.
  - rewrite text_lines_count, line_feeds_unlines. unfold report.
    cbn [map length]. rewrite list_sum_cons, Hh, (line_feeds_metadata _ _ _ Hv).
    reflexivity.
  - destruct (unlines_terminated header (map (metadata_line variant vi) fields))
      as [x E].
    unfold report. rewrite E.
    now destruct (text_lines_terminated x) as (l & ls & ->).
Qed.

(** X3.  Whatever the values, the output of either program ends with a line
    feed, and a reader who splits it at the line feeds counts eight lines
    plus one more for every line feed held by a value. *)
Theorem output_line_count (argc : Z) (argv : list string) (w : world) :
  (length (fst (text_lines (output (main argc argv) w))) =
     8 + line_feeds_in (info w example) /\
   snd (text_lines (output (main argc argv) w)) = "") /\
  (length (fst (text_lines (output print_version_of_lib w))) =
     8 + line_feeds_in (info w example_lib) /\
   snd (text_lines (output print_version_of_lib w)) = "").
Proof.
  unfold output. rewrite main_trace, print_version_of_lib_trace. split.
  - destruct (report_trace "CMake-GitVersion example" "" example (info w example))
      as [_ E].
    cbv zeta in E. rewrite E. now apply report_line_count.
  - destruct (report_trace "| CMake-GitVersion library version" "| " example_lib
                           (info w example_lib)) as [_ E].
    cbv zeta in E. rewrite E. now apply report_line_count.
Qed.

(** *** Reading the version data back from the report *)

Lemma append_cancel_l (a b c : string) : a ++ b = a ++ c -> b = c.
Proof.
  induction a as [|x a IH]; simpl; intros H; [exact H|].
  injection H as H. now apply IH.
Qed.

Lemma format_uint_inj (n m : N) : format (UInt n) = format (UInt m) -> n = m.
Proof.
  simpl. intros H. apply Unsigned.to_uint_inj.
  assert (E : Some (N.to_uint n) = Some (N.to_uint m))
    by (rewrite <- !NilEmpty.usu; now rewrite H).
  now injection E.
Qed.

(** Two values of one accessor that print alike are the same value. *)
Lemma format_returns_inj (a : accessor) (vi1 vi2 : VersionInfo.t) :
  format (returns a vi1) = format (returns a vi2) -> returns a vi1 = returns a vi2.
Proof.
  destruct a; simpl; intros H; try now rewrite H.
  - destruct (VersionInfo.version_isdirty vi1), (VersionInfo.version_isdirty vi2);
      (reflexivity || discriminate H).
  - f_equal. now apply format_uint_inj.
Qed.

Lemma metadata_lines_inj (variant : string) (vi1 vi2 : VersionInfo.t)
    (fs : list accessor) :
  map (metadata_line variant vi1) fs = map (metadata_line variant vi2) fs ->
  forall a, In a fs -> returns a vi1 = returns a vi2.
Proof.
  induction fs as [|b fs IH]; simpl; intros H a Hin; [destruct Hin|].
  injection H as Hb Hfs. destruct Hin as [<-|Hin]; [|now apply IH].
  apply format_returns_inj. unfold metadata_line in Hb.
  now apply append_cancel_l in Hb.
Qed.

Lemma report_inj (header variant : string) (vi1 vi2 : VersionInfo.t) :
  report header variant vi1 = report header variant vi2 -> vi1 = vi2.
Proof.
  unfold report. intros H. apply (f_equal (@tl string)) in H. cbn [tl] in H.
  pose proof (metadata_lines_inj _ _ _ _ H) as E.
  assert (F : forall a, returns a vi1 = returns a vi2)
    by (intros a; apply E; destruct a; simpl; tauto).
  pose proof (F version_string) as E1. pose proof (F version_branch) as E2.
  pose proof (F version_fullhash) as E3. pose proof (F version_shorthash) as E4.
  pose proof (F version_isdirty) as E5. pose proof (F version_distance) as E6.
  pose proof (F version_flag) as E7.
  destruct vi1, vi2. simpl in *. congruence.
Qed.

(** X4.  The report of [main] identifies the build: two runs whose values
    hold no line feed and whose outputs are the same text were built with the
    same seven values of the target [example]. *)
Theorem main_output_identifies_build (argc1 argc2 : Z) (argv1 argv2 : list string)
    (w1 w2 : world) :
  one_line_each (info w1 example) = true ->
  one_line_each (info w2 example) = true ->
  output (main argc1 argv1) w1 = output (main argc2 argv2) w2 ->
  info w1 example = info w2 example.
Proof.
  unfold output. rewrite !main_trace. intros H1 H2 H.
  destruct (report_trace "CMake-GitVersion example" "" example (info w1 example))
    as [_ E1].
  destruct (report_trace "CMake-GitVersion example" "" example (info w2 example))
    as [_ E2].
  cbv zeta in E1, E2. rewrite E1, E2 in H.
  apply (f_equal text_lines) in H.
  rewrite !report_text_lines in H by (reflexivity || assumption).
  apply (f_equal fst) in H. cbn [fst] in H.
  exact (report_inj H).
Qed.

Lemma main_output_identifies_build_witness :
  one_line_each (info (fresh (fun _ => scenario)) example) = true /\
  one_line_each
    (info (resumed (fun l => match l with
                             | example => scenario
                             | example_lib => release
                             end)) example) = true /\
  output (main 1 ["example"]) (fresh (fun _ => scenario)) =
  output (main 2 ["example"; "-v"])
         (resumed (fun l => match l with
                            | example => scenario
                            | example_lib => release
                            end)) /\
  info (fresh (fun _ => scenario)) example =
  info (resumed (fun l => match l with
                          | example => scenario
                          | example_lib => release
                          end)) example.
Proof.
  split; [reflexivity|]. split; [reflexivity|]. split; [reflexivity|].
  exact (@main_output_identifies_build 1 2 ["example"] ["example"; "-v"]
           (fresh (fun _ => scenario))
           (resumed (fun l => match l with
                              | example => scenario
                              | example_lib => release
                              end))
           eq_refl eq_refl eq_refl).
Defined.

(** X5.  The report of [print_version_of_lib] identifies the build of the
    library in the same way. *)
Theorem lib_output_identifies_build (w1 w2 : world) :
  one_line_each (info w1 example_lib) = true ->
  one_line_each (info w2 example_lib) = true ->
  output print_version_of_lib w1 = output print_version_of_lib w2 ->
  info w1 example_lib = info w2 example_lib.
Proof.
  unfold output. rewrite !print_version_of_lib_trace. intros H1 H2 H.
  destruct (report_trace "| CMake-GitVersion library version" "| " example_lib
                         (info w1 example_lib)) as [_ E1].
  destruct (report_trace "| CMake-GitVersion library version" "| " example_lib
                         (info w2 example_lib)) as [_ E2].
  cbv zeta in E1, E2. rewrite E1, E2 in H.
  apply (f_equal text_lines) in H.
  rewrite !report_text_lines in H by (reflexivity || assumption).
  apply (f_equal fst) in H. cbn [fst] in H.
  exact (report_inj H).
Qed.

Lemma lib_output_identifies_build_witness :
  one_line_each (info (fresh (fun _ => release)) example_lib) = true /\
  one_line_each (info (resumed (fun _ => release)) example_lib) = true /\
  output print_version_of_lib (fresh (fun _ => release)) =
  output print_version_of_lib (resumed (fun _ => release)) /\
  info (fresh (fun _ => release)) example_lib =
  info (resumed (fun _ => release)) example_lib.
Proof.
  split; [reflexivity|]. split; [reflexivity|]. split; [reflexivity|].
  exact (@lib_output_identifies_build (fresh (fun _ => release))
           (resumed (fun _ => release)) eq_refl eq_refl eq_refl).
Defined.

(** Without the condition on line feeds the text does not identify the
    build: here are two builds that differ in version string and branch and
    print the same report. *)
Lemma line_feeds_make_report_ambiguous :
  broken_string <> broken_branch /\
  output (main 1 ["example"]) (fresh (fun _ => broken_string)) =
  output (main 1 ["example"]) (fresh (fun _ => broken_branch)).
Proof. split; [discriminate | reflexivity]. Qed.

(** *** [print_version_of_lib] behind a caller *)

Lemma lines_from_app (t1 t2 : list event) :
  forall cur,
    lines_from cur (t1 ++ t2)%list =
    ((fst (lines_from cur t1) ++
      fst (lines_from (snd (lines_from cur t1)) t2))%list,
     snd (lines_from (snd (lines_from cur t1)) t2)).
Proof.
  induction t1 as [|[l a v|v|] t1 IH]; intros cur; cbn [app lines_from].
  - cbn [fst snd app]. now destruct (lines_from cur t2).
  - apply IH.
  - apply IH.
  - rewrite (IH ""). destruct (lines_from "" t1) as [ls rest]. reflexivity.
Qed.

(** The lines of the report when the caller left [cur] on an open line. *)
Lemma report_lines_from (cur header variant : string) (l : library)
    (vi : VersionInfo.t) :
  lines_from cur (header_statement header ++
                  flat_map (statement variant l vi) fields)%list =
  ((cur ++ header) :: map (metadata_line variant vi) fields, "").
Proof. reflexivity. Qed.

(** X6.  [print_version_of_lib] called after a caller made only of
    accessor calls, insertions of strings, booleans and unsigned integers
    with [operator<<], and [std::endl], so that the format flags of
    [std::cout] are still the initial ones when the function starts: the
    lines the caller completed stay as they are, the header is appended to
    whatever the caller left on an open line (the function starts no line of
    its own), the seven metadata lines follow, and the function returns with
    the whole stream flushed, the caller's buffered characters included, and
    the version data as it was before the caller ran.  A caller that applies
    a manipulator such as [std::boolalpha] or [std::hex] is not a term of
    [prog] and is not covered. *)
Theorem print_version_of_lib_after_caller (R : Type) (p : prog R) (w : world) :
  let o := exec (_ <- p ;; print_version_of_lib)%prog w in
  lines_from "" (trace o) =
    ((fst (lines_written p w) ++
      (snd (lines_written p w) ++ "| CMake-GitVersion library version")%string
        :: map (metadata_line "| " (info w example_lib)) fields)%list, "") /\
  cout (final o) =
    {| flushed := contents (cout (final (exec p w))) ++
                  unlines (report "| CMake-GitVersion library version" "| "
                                  (info w example_lib));
       pending := "" |} /\
  info (final o) = info w.
Proof.
  cbv zeta. rewrite exec_bind. cbv zeta. cbn [trace final].
  split; [|split].
  - rewrite lines_from_app, print_version_of_lib_trace, report_lines_from.
    now rewrite exec_info.
  - rewrite exec_flushed by reflexivity. unfold output.
    rewrite print_version_of_lib_trace, exec_info.
    now destruct (report_trace "| CMake-GitVersion library version" "| "
                               example_lib (info w example_lib)) as [_ ->].
  - now rewrite !exec_info.
Qed.
